(** * CodeExecutorAgent

    A shallow embedding of
    [autogen_agentchat/agents/_code_executor_agent.py]: the agent that
    collects the markdown code blocks of the text messages it receives, hands
    them to the injected code executor in one call and replies with the
    executor's output.

    The collaborators the module imports ([CancellationToken], the other
    variants of [ChatMessage], [extract_markdown_code_blocks] and the
    executors behind the [CodeExecutor] protocol) are parameters of the
    development.  Calls to the executor are the only effect of the module;
    they are kept as nodes of a program tree ([Prog]) and given a meaning by
    [run], so that "how often, with what" and "what comes back" are both
    statements about the program.  Methods thread the agent object through
    ([Method]), so that "the agent keeps no state" is a statement too. *)

From Stdlib Require Import List String Ascii ZArith Bool.
Import ListNotations.
Local Open Scope string_scope.
Local Open Scope list_scope.

Set Implicit Arguments.

(** ** Data of the collaborating modules *)

(** Modelled from the spec: [CodeBlock] is imported from
    [autogen_core.components.code_executor]; the agent only passes code
    blocks on.  A block has the body of a fence and its language tag. *)
Record CodeBlock : Type := mkCodeBlock {
  code : string;
  language : string
}.

(** Modelled from the spec: what [execute_code_blocks] resolves to, imported
    likewise.  The agent reads [output]; the exit code stands for the
    success or failure of the execution. *)
Record CodeResult : Type := mkCodeResult {
  exit_code : Z;
  output : string
}.

Section Agent.

(** The variants of [ChatMessage] other than [TextMessage] and their
    classes ([..messages] is imported, not defined, by the module), the
    executor objects, the cancellation tokens. *)
Variables OtherMessage OtherMessageType CodeExecutor CancellationToken : Type.

(** ** Messages *)

Inductive ChatMessage : Type :=
| TextMessage (content : string) (source : string)
| OtherChatMessage (m : OtherMessage).

(** The class objects a list such as [[TextMessage]] holds. *)
Inductive MessageType : Type :=
| TextMessageType
| OtherMessageTypeOf (c : OtherMessageType).

(** [isinstance(msg, TextMessage)]. *)
Definition isinstance_TextMessage (msg : ChatMessage) : bool :=
  match msg with
  | TextMessage _ _ => true
  | OtherChatMessage _ => false
  end.

(** [..base.Response] as the module builds it: one chat message. *)
Record Response : Type := mkResponse {
  chat_message : ChatMessage
}.

(** ** Programs that may call an executor

    A computation either is done, or performs
    [await ex.execute_code_blocks(code_blocks, cancellation_token=tok)]
    and goes on with the result. *)
Inductive Prog (A : Type) : Type :=
| Ret (a : A)
| Execute (ex : CodeExecutor) (code_blocks : list CodeBlock)
          (tok : CancellationToken) (k : CodeResult -> Prog A).

Arguments Ret {A} a.
Arguments Execute {A} ex code_blocks tok k.

Fixpoint pbind {A B : Type} (p : Prog A) (f : A -> Prog B) : Prog B :=
  match p with
  | Ret a => f a
  | Execute ex bs tok k => Execute ex bs tok (fun r => pbind (k r) f)
  end.

(** ** The agent object *)

(** Modelled from the spec: [BaseChatAgent] (module [._base_chat_agent]) is
    not part of this file.  It holds the name and the description of the
    agent. *)
Record BaseChatAgent : Type := mkBaseChatAgent {
  _name : string;
  _description : string
}.

(** Modelled from the spec: [BaseChatAgent.__init__], missing as well, keeps
    [name] and [description]; it does no I/O and does not fail. *)
Definition BaseChatAgent_init (name description : string)
  : Prog BaseChatAgent :=
  Ret (mkBaseChatAgent name description).

Record CodeExecutorAgent : Type := mkCodeExecutorAgent {
  base : BaseChatAgent;
  _code_executor : CodeExecutor
}.

(** Modelled from the spec: the properties [name] and [description] that
    the agent inherits from [BaseChatAgent] give back what the constructor
    kept. *)
Definition name (self : CodeExecutorAgent) : string := _name (base self).

Definition description (self : CodeExecutorAgent) : string :=
  _description (base self).

(** A method body: a program from the object to a result and the object
    it leaves. *)
Definition Method (A : Type) : Type :=
  CodeExecutorAgent -> Prog (A * CodeExecutorAgent).

Definition mret {A : Type} (a : A) : Method A :=
  fun self => Ret (a, self).

Definition mbind {A B : Type} (m : Method A) (f : A -> Method B) : Method B :=
  fun self => pbind (m self) (fun r => f (fst r) (snd r)).

(** [self.x] *)
Definition attr {A : Type} (x : CodeExecutorAgent -> A) : Method A :=
  fun self => Ret (x self, self).

(** [await p] *)
Definition await {A : Type} (p : Prog A) : Method A :=
  fun self => pbind p (fun a => Ret (a, self)).

Declare Scope method_scope.
Notation "x <- m ;; k" := (mbind m (fun x => k))
  (at level 61, m at next level, right associativity) : method_scope.
Local Open Scope method_scope.

(** ** [__init__] *)

(** The default of the keyword [description]. *)
Definition default_description : string :=
  "A computer terminal that performs no other action than running Python scripts (provided to it quoted in ```python code blocks), or sh shell scripts (provided to it quoted in ```sh code blocks).".

(** [super().__init__(name=name, description=description)], then
    [self._code_executor = code_executor]. *)
Definition __init__ (name : string) (code_executor : CodeExecutor)
           (description : string) : Prog CodeExecutorAgent :=
  pbind (BaseChatAgent_init name description)
        (fun b => Ret (mkCodeExecutorAgent b code_executor)).

(** The call [CodeExecutorAgent(...)]: an argument the caller leaves out is
    [None].  [name] and [code_executor] have no default, [description] has
    one; Python raises [TypeError] naming the missing parameters before the
    body runs. *)
Inductive TypeError : Type :=
| MissingArguments (parameters : list string).

Definition missing {A : Type} (parameter : string) (arg : option A)
  : list string :=
  match arg with
  | Some _ => []
  | None => [parameter]
  end.

Definition new_CodeExecutorAgent (name : option string)
           (code_executor : option CodeExecutor)
           (description : option string)
  : TypeError + Prog CodeExecutorAgent :=
  match name, code_executor with
  | Some n, Some ex =>
      inr (__init__ n ex
             (match description with
              | Some d => d
              | None => default_description
              end))
  | _, _ =>
      inl (MissingArguments
             (missing "name" name ++ missing "code_executor" code_executor))
  end.

(** ** [produced_message_types] *)

Definition produced_message_types : Method (list MessageType) :=
  mret [TextMessageType].

(** ** [on_messages] *)

Variable extract_markdown_code_blocks : string -> list CodeBlock.

(** One turn of the loop of lines 78-80: [code_blocks.extend(...)] for a
    [TextMessage], nothing for another message. *)
Definition extend_from (code_blocks : list CodeBlock) (msg : ChatMessage)
  : list CodeBlock :=
  match msg with
  | TextMessage content _ =>
      code_blocks ++ extract_markdown_code_blocks content
  | OtherChatMessage _ => code_blocks
  end.

Definition on_messages (messages : list ChatMessage)
           (cancellation_token : CancellationToken) : Method Response :=
  let code_blocks := fold_left extend_from messages [] in
  match code_blocks with
  | _ :: _ =>
      ex <- attr _code_executor ;;
      result <- await (Execute ex code_blocks cancellation_token Ret) ;;
      self_name <- attr name ;;
      mret (mkResponse (TextMessage (output result) self_name))
  | [] =>
      self_name <- attr name ;;
      mret (mkResponse
              (TextMessage "No code blocks found in the thread." self_name))
  end.

(** ** [on_reset] *)

Definition on_reset (cancellation_token : CancellationToken) : Method unit :=
  mret tt.

(** ** Meaning of a program

    An executor acts on the world outside the agent (files, processes,
    containers) and either resolves to a [CodeResult] or raises; a cancelled
    call raises too ([asyncio.CancelledError]). *)
Variables World Exn : Type.

Inductive Outcome (A : Type) : Type :=
| Returned (a : A)
| Raised (e : Exn).

Arguments Returned {A} a.
Arguments Raised {A} e.

(** The method of the [CodeExecutor] protocol the agent uses. *)
Variable execute_code_blocks :
  CodeExecutor -> list CodeBlock -> CancellationToken -> World ->
  Outcome CodeResult * World.

(** One recorded call of an executor. *)
Record Invocation : Type := mkInvocation {
  inv_executor : CodeExecutor;
  inv_code_blocks : list CodeBlock;
  inv_cancellation_token : CancellationToken
}.

Record Run (A : Type) : Type := mkRun {
  outcome : Outcome A;
  world : World;
  invocations : list Invocation
}.

(** An exception raised by an awaited call leaves the program at once: the
    module has no [try]. *)
Fixpoint run_from {A : Type} (p : Prog A) (w : World)
         (log : list Invocation) : Run A :=
  match p with
  | Ret a => mkRun (Returned a) w log
  | Execute ex bs tok k =>
      let log' := log ++ [mkInvocation ex bs tok] in
      match execute_code_blocks ex bs tok w with
      | (Returned r, w') => run_from (k r) w' log'
      | (Raised e, w') => mkRun (Raised e) w' log'
      end
  end.

Definition run {A : Type} (p : Prog A) (w : World) : Run A :=
  run_from p w [].

(** ** What the specification calls the combined sequence

    The blocks of one message, and the blocks of the messages one after the
    other. *)
Definition message_code_blocks (msg : ChatMessage) : list CodeBlock :=
  match msg with
  | TextMessage content _ => extract_markdown_code_blocks content
  | OtherChatMessage _ => []
  end.

Definition combined_code_blocks (messages : list ChatMessage)
  : list CodeBlock :=
  flat_map message_code_blocks messages.

End Agent.

Arguments TextMessage {OtherMessage} content source.
Arguments OtherChatMessage {OtherMessage} m.
Arguments TextMessageType {OtherMessageType}.
Arguments OtherMessageTypeOf {OtherMessageType} c.
Arguments Ret {CodeExecutor CancellationToken A} a.
Arguments Execute {CodeExecutor CancellationToken A} ex code_blocks tok k.
Arguments Returned {Exn A} a.
Arguments Raised {Exn A} e.
Arguments mkRun {CodeExecutor CancellationToken World Exn A}
  outcome world invocations.
Arguments produced_message_types {OtherMessageType CodeExecutor
  CancellationToken} _.
Arguments on_messages {OtherMessage CodeExecutor CancellationToken}
  extract_markdown_code_blocks messages cancellation_token _.
Arguments on_reset {CodeExecutor CancellationToken} cancellation_token _.
Arguments new_CodeExecutorAgent {CodeExecutor CancellationToken}
  name code_executor description.
Arguments __init__ {CodeExecutor CancellationToken}
  name code_executor description.

(** [type(msg)], given the classes of the messages that are not text
    messages. *)
Definition type_of {OtherMessage OtherMessageType : Type}
           (other_type : OtherMessage -> OtherMessageType)
           (msg : ChatMessage OtherMessage) : MessageType OtherMessageType :=
  match msg with
  | TextMessage _ _ => TextMessageType
  | OtherChatMessage m => OtherMessageTypeOf (other_type m)
  end.

(** What a caller of a method sees of its outcome: the value returned, not
    the object the method leaves. *)
Definition returned_value {Exn A S : Type} (o : Outcome Exn (A * S))
  : Outcome Exn A :=
  match o with
  | Returned r => Returned (fst r)
  | Raised e => Raised e
  end.

(** ** Sample collaborators

    Concrete collaborators on which the statements below are exercised. *)
Module Sample.

Definition backtick : ascii := "`"%char.
Definition newline : ascii := ascii_of_nat 10.
Definition nl : string := String newline "".

Definition snoc (s : string) (c : ascii) : string := s ++ String c "".

Fixpoint backticks (n : nat) : string :=
  match n with
  | O => ""
  | S n' => String backtick (backticks n')
  end.

Fixpoint strip_final_newline (s : string) : string :=
  match s with
  | "" => ""
  | String c s' =>
      match s' with
      | "" => if Ascii.eqb c newline then "" else s
      | String _ _ => String c (strip_final_newline s')
      end
  end.

(** Where a scan of the text stands: outside a fence (after [ticks]
    backticks in a row), on the line of an opening fence, or in the body
    of a block. *)
Inductive FenceState : Type :=
| Outside (ticks : nat)
| InTag (tag : string)
| InBody (tag body : string) (ticks : nat).

Fixpoint scan (st : FenceState) (text : string) : list CodeBlock :=
  match text with
  | "" => []
  | String c rest =>
      match st with
      | Outside n =>
          if Ascii.eqb c backtick
          then (if Nat.eqb n 2 then scan (InTag "") rest
                else scan (Outside (S n)) rest)
          else scan (Outside 0) rest
      | InTag tag =>
          if Ascii.eqb c newline then scan (InBody tag "" 0) rest
          else scan (InTag (snoc tag c)) rest
      | InBody tag body n =>
          if Ascii.eqb c backtick
          then (if Nat.eqb n 2
                then mkCodeBlock (strip_final_newline body) tag
                       :: scan (Outside 0) rest
                else scan (InBody tag body (S n)) rest)
          else scan (InBody tag (snoc (body ++ backticks n) c) 0) rest
      end
  end.

(** Modelled from the spec: [extract_markdown_code_blocks] lives in
    [autogen_core.components.code_executor], outside this file.  Markdown
    fences of the form three backticks, language, newline, code, newline,
    three backticks give one block each, in document order; a text without
    a complete fence gives no block. *)
Definition extract_markdown_code_blocks (text : string) : list CodeBlock :=
  scan (Outside 0) text.

(** A message variant that is not a [TextMessage] although it has a text. *)
Inductive OtherMessage : Type :=
| StopMessage (content : string) (source : string).

Inductive OtherMessageType : Type :=
| StopMessageType.

(** A cancellation token that knows whether it was cancelled. *)
Record CancellationToken : Type := mkToken {
  is_cancelled : bool
}.

Inductive Exception : Type :=
| CancelledError
| RuntimeError (msg : string).

(** Three executors: one that gives the code back as its output, one whose
    scripts exit with status 1, one that is not running. *)
Inductive CodeExecutor : Type :=
| EchoExecutor
| ExitOneExecutor
| StoppedExecutor.

(** The world: the blocks executed so far. *)
Definition World : Type := list CodeBlock.

Definition join_code (code_blocks : list CodeBlock) : string :=
  String.concat nl (map code code_blocks).

Definition execute_code_blocks (ex : CodeExecutor)
           (code_blocks : list CodeBlock) (tok : CancellationToken)
           (w : World) : Outcome Exception CodeResult * World :=
  if is_cancelled tok then (Raised CancelledError, w)
  else
    match ex with
    | EchoExecutor =>
        (Returned (mkCodeResult 0 (join_code code_blocks)), w ++ code_blocks)
    | ExitOneExecutor =>
        (Returned (mkCodeResult 1 "exit status 1"), w ++ code_blocks)
    | StoppedExecutor => (Raised (RuntimeError "executor not running"), w)
    end.

Definition fence (lang body : string) : string :=
  backticks 3 ++ lang ++ nl ++ body ++ nl ++ backticks 3 ++ nl.

Definition hello : string :=
  "Here is some code" ++ nl ++ fence "python" "print('Hello world')".

Definition two_blocks : string :=
  fence "sh" "mkdir out" ++ "then" ++ nl ++ fence "python" "open('out/f', 'w')".

Definition agent : CodeExecutorAgent CodeExecutor :=
  mkCodeExecutorAgent (mkBaseChatAgent "code_executor" "runs code")
                      EchoExecutor.

Definition exit_one_agent : CodeExecutorAgent CodeExecutor :=
  mkCodeExecutorAgent (mkBaseChatAgent "code_executor" "runs code")
                      ExitOneExecutor.

Definition stopped_agent : CodeExecutorAgent CodeExecutor :=
  mkCodeExecutorAgent (mkBaseChatAgent "code_executor" "runs code")
                      StoppedExecutor.

(** A thread with code in two text messages and in a message that is not
    a text message, and the blocks of its text messages. *)
Definition thread : list (ChatMessage OtherMessage) :=
  [TextMessage two_blocks "coder";
   OtherChatMessage (StopMessage (fence "sh" "rm -r out") "critic");
   TextMessage hello "user"].

Definition thread_code_blocks : list CodeBlock :=
  [mkCodeBlock "mkdir out" "sh";
   mkCodeBlock "open('out/f', 'w')" "python";
   mkCodeBlock "print('Hello world')" "python"].

Definition other_type (m : OtherMessage) : OtherMessageType :=
  match m with
  | StopMessage _ _ => StopMessageType
  end.

(** The same agent under another description. *)
Definition terse_agent : CodeExecutorAgent CodeExecutor :=
  mkCodeExecutorAgent (mkBaseChatAgent "code_executor" "") EchoExecutor.

(** The text messages of [thread] in one. *)
Definition merged_thread : list (ChatMessage OtherMessage) :=
  [TextMessage (two_blocks ++ hello) "anyone"].

(** A thread without a code block in a text message. *)
Definition idle_thread : list (ChatMessage OtherMessage) :=
  [OtherChatMessage (StopMessage (fence "sh" "rm -r out") "critic");
   TextMessage "Nothing to run, only ``` a stray fence" "user"].

End Sample.


(** * Properties *)

Section Properties.

Variables OtherMessage OtherMessageType CodeExecutor CancellationToken : Type.
Variables World Exn : Type.
Variable extract_markdown_code_blocks : string -> list CodeBlock.
Variable execute_code_blocks :
  CodeExecutor -> list CodeBlock -> CancellationToken -> World ->
  Outcome Exn CodeResult * World.

(** ** The loop and the combined sequence *)

Lemma fold_left_extend_from (messages : list (ChatMessage OtherMessage)) :
  forall acc : list CodeBlock,
    fold_left (extend_from extract_markdown_code_blocks) messages acc
    = acc ++ combined_code_blocks extract_markdown_code_blocks messages.
Proof.
  induction messages as [| msg rest IH]; intro acc; simpl.
  - now rewrite app_nil_r.
  - rewrite IH. destruct msg as [content source | other]; simpl.
    + now rewrite app_assoc.
    + reflexivity.
Qed.

Lemma collected_code_blocks (messages : list (ChatMessage OtherMessage)) :
  fold_left (extend_from extract_markdown_code_blocks) messages []
  = combined_code_blocks extract_markdown_code_blocks messages.
Proof. now rewrite fold_left_extend_from. Qed.

Lemma combined_app (before after : list (ChatMessage OtherMessage)) :
  combined_code_blocks extract_markdown_code_blocks (before ++ after)
  = combined_code_blocks extract_markdown_code_blocks before
    ++ combined_code_blocks extract_markdown_code_blocks after.
Proof. unfold combined_code_blocks. now rewrite flat_map_app. Qed.

Lemma combined_text_only (messages : list (ChatMessage OtherMessage)) :
  combined_code_blocks extract_markdown_code_blocks
    (filter (@isinstance_TextMessage _) messages)
  = combined_code_blocks extract_markdown_code_blocks messages.
Proof.
  unfold combined_code_blocks.
  induction messages as [| msg rest IH]; simpl; [reflexivity |].
  destruct msg as [content source | other]; simpl.
  - now rewrite IH.
  - exact IH.
Qed.

Lemma combined_others (others : list OtherMessage) :
  combined_code_blocks extract_markdown_code_blocks
    (map (@OtherChatMessage _) others) = [].
Proof. induction others as [| o rest IH]; simpl; [reflexivity | exact IH]. Qed.

(** ** The two shapes of [on_messages] *)

Lemma on_messages_some (self : CodeExecutorAgent CodeExecutor)
      (messages : list (ChatMessage OtherMessage))
      (tok : CancellationToken) :
  combined_code_blocks extract_markdown_code_blocks messages <> [] ->
  on_messages extract_markdown_code_blocks messages tok self
  = Execute (_code_executor self)
      (combined_code_blocks extract_markdown_code_blocks messages) tok
      (fun result =>
         Ret (mkResponse (TextMessage (output result) (name self)), self)).
Proof.
  intro Hsome. unfold on_messages. rewrite collected_code_blocks.
  destruct (combined_code_blocks _ messages) as [| b bs] eqn:Eblocks.
  - now contradiction Hsome.
  - reflexivity.
Qed.

Lemma on_messages_none (self : CodeExecutorAgent CodeExecutor)
      (messages : list (ChatMessage OtherMessage))
      (tok : CancellationToken) :
  combined_code_blocks extract_markdown_code_blocks messages = [] ->
  on_messages extract_markdown_code_blocks messages tok self
  = Ret (mkResponse
           (TextMessage "No code blocks found in the thread." (name self)),
         self).
Proof.
  intro Hnone. unfold on_messages. rewrite collected_code_blocks, Hnone.
  reflexivity.
Qed.

Lemma on_messages_same_blocks (self : CodeExecutorAgent CodeExecutor)
      (m1 m2 : list (ChatMessage OtherMessage)) (tok : CancellationToken) :
  combined_code_blocks extract_markdown_code_blocks m1
  = combined_code_blocks extract_markdown_code_blocks m2 ->
  on_messages extract_markdown_code_blocks m1 tok self
  = on_messages extract_markdown_code_blocks m2 tok self.
Proof.
  intro Heq. unfold on_messages. rewrite !collected_code_blocks, Heq.
  reflexivity.
Qed.

(** ** Running a sequence *)

Lemma run_from_pbind (A B : Type)
      (p : Prog CodeExecutor CancellationToken A)
      (f : A -> Prog CodeExecutor CancellationToken B) :
  forall (w : World) (log : list (Invocation CodeExecutor CancellationToken)),
    run_from execute_code_blocks (pbind p f) w log
    = match outcome (run_from execute_code_blocks p w log) with
      | Returned a =>
          run_from execute_code_blocks (f a)
                   (world (run_from execute_code_blocks p w log))
                   (invocations (run_from execute_code_blocks p w log))
      | Raised e =>
          mkRun (Raised e)
                (world (run_from execute_code_blocks p w log))
                (invocations (run_from execute_code_blocks p w log))
      end.
Proof.
  induction p as [a | ex bs tok k IH]; intros w log; simpl.
  - reflexivity.
  - destruct (execute_code_blocks ex bs tok w) as [[r | e] w'].
    + apply IH.
    + reflexivity.
Qed.

(** ** Runs of [on_messages] *)

Lemma code_blocks_empty_dec (code_blocks : list CodeBlock) :
  {code_blocks = []} + {code_blocks <> []}.
Proof. destruct code_blocks; [now left | now right]. Qed.

Lemma run_on_messages_some (self : CodeExecutorAgent CodeExecutor)
      (messages : list (ChatMessage OtherMessage))
      (tok : CancellationToken) (w : World) :
  combined_code_blocks extract_markdown_code_blocks messages <> [] ->
  run execute_code_blocks
      (on_messages extract_markdown_code_blocks messages tok self) w
  = mkRun
      (match fst (execute_code_blocks (_code_executor self)
                    (combined_code_blocks extract_markdown_code_blocks
                       messages) tok w) with
       | Returned result =>
           Returned
             (mkResponse (TextMessage (output result) (name self)), self)
       | Raised e => Raised e
       end)
      (snd (execute_code_blocks (_code_executor self)
              (combined_code_blocks extract_markdown_code_blocks messages)
              tok w))
      [mkInvocation (_code_executor self)
         (combined_code_blocks extract_markdown_code_blocks messages) tok].
Proof.
  intro Hsome. rewrite on_messages_some by exact Hsome.
  unfold run; simpl.
  destruct (execute_code_blocks _ _ tok w) as [[r | e] w1]; reflexivity.
Qed.

Lemma run_on_messages_none (self : CodeExecutorAgent CodeExecutor)
      (messages : list (ChatMessage OtherMessage))
      (tok : CancellationToken) (w : World) :
  combined_code_blocks extract_markdown_code_blocks messages = [] ->
  run execute_code_blocks
      (on_messages extract_markdown_code_blocks messages tok self) w
  = mkRun (Returned
             (mkResponse
                (TextMessage "No code blocks found in the thread."
                             (name self)),
              self))
          w [].
Proof. intro Hnone. now rewrite on_messages_none. Qed.

(** ** [on_messages] with code blocks *)

(** C1.  When the messages hold at least one code block, [on_messages] is
    one call of the agent's own executor, with all the code blocks of the
    messages in order and with the cancellation token it was given; when
    that call resolves to a result, whatever its exit code, the reply is a
    [TextMessage] with the result's output as content and the agent's name
    as source, and the agent is left as it was. *)
Theorem on_messages_executes_once
        (self : CodeExecutorAgent CodeExecutor)
        (messages : list (ChatMessage OtherMessage))
        (tok : CancellationToken) :
  combined_code_blocks extract_markdown_code_blocks messages <> [] ->
  on_messages extract_markdown_code_blocks messages tok self
  = Execute (_code_executor self)
      (combined_code_blocks extract_markdown_code_blocks messages) tok
      (fun result =>
         Ret (mkResponse (TextMessage (output result) (name self)), self))
  /\ (forall w : World,
        invocations
          (run execute_code_blocks
               (on_messages extract_markdown_code_blocks messages tok self) w)
        = [mkInvocation (_code_executor self)
             (combined_code_blocks extract_markdown_code_blocks messages)
             tok])
  /\ (forall (w w' : World) (status : Z) (out : string),
        execute_code_blocks (_code_executor self)
          (combined_code_blocks extract_markdown_code_blocks messages) tok w
        = (Returned (mkCodeResult status out), w') ->
        run execute_code_blocks
            (on_messages extract_markdown_code_blocks messages tok self) w
        = mkRun (Returned (mkResponse (TextMessage out (name self)), self))
                w'
                [mkInvocation (_code_executor self)
                   (combined_code_blocks extract_markdown_code_blocks
                      messages)
                   tok]).
Proof.
  intro Hsome. split; [| split].
  - now apply on_messages_some.
  - intro w. now rewrite run_on_messages_some.
  - intros w w' status out Hexec.
    rewrite run_on_messages_some by exact Hsome.
    rewrite Hexec. reflexivity.
Qed.

(** C2.  The executor receives the blocks message by message, and within a
    message in the order of extraction: whatever the messages, the calls of
    a run are none when the concatenation of the messages' blocks is empty
    and else the one call with that concatenation; so blocks [a1, a2] of a
    message followed by block [b1] of a later message arrive as
    [a1, a2, b1]. *)
Theorem executor_receives_blocks_in_order
        (self : CodeExecutorAgent CodeExecutor) (tok : CancellationToken)
        (w : World) :
  (forall messages : list (ChatMessage OtherMessage),
     invocations
       (run execute_code_blocks
            (on_messages extract_markdown_code_blocks messages tok self) w)
     = match flat_map (message_code_blocks extract_markdown_code_blocks)
               messages with
       | [] => []
       | b :: bs => [mkInvocation (_code_executor self) (b :: bs) tok]
       end)
  /\ (forall (contentA sourceA contentB sourceB : string)
             (a1 a2 b1 : CodeBlock),
        extract_markdown_code_blocks contentA = [a1; a2] ->
        extract_markdown_code_blocks contentB = [b1] ->
        invocations
          (run execute_code_blocks
               (on_messages (OtherMessage := OtherMessage)
                  extract_markdown_code_blocks
                  [TextMessage contentA sourceA; TextMessage contentB sourceB]
                  tok self) w)
        = [mkInvocation (_code_executor self) [a1; a2; b1] tok]).
Proof.
  assert (Hall : forall messages : list (ChatMessage OtherMessage),
     invocations
       (run execute_code_blocks
            (on_messages extract_markdown_code_blocks messages tok self) w)
     = match flat_map (message_code_blocks extract_markdown_code_blocks)
               messages with
       | [] => []
       | b :: bs => [mkInvocation (_code_executor self) (b :: bs) tok]
       end).
  { intro messages. unfold on_messages. rewrite collected_code_blocks.
    unfold combined_code_blocks.
    destruct (flat_map _ messages) as [| b bs]; [reflexivity |].
    unfold run; simpl.
    destruct (execute_code_blocks _ _ tok w) as [[r | e] w1]; reflexivity. }
  split; [exact Hall |].
  intros contentA sourceA contentB sourceB a1 a2 b1 HA HB.
  rewrite Hall. simpl. rewrite HA, HB. reflexivity.
Qed.

(** ** [on_messages] without code blocks *)

(** C3.  When the messages hold no code block, [on_messages] returns the
    reply "No code blocks found in the thread." with the agent's name as
    source, without any call of the executor and without touching the world
    or the agent; this is so in particular for the empty sequence and for a
    sequence without any [TextMessage]. *)
Theorem on_messages_without_code_blocks
        (self : CodeExecutorAgent CodeExecutor) (tok : CancellationToken)
        (w : World) :
  (forall messages : list (ChatMessage OtherMessage),
     combined_code_blocks extract_markdown_code_blocks messages = [] ->
     run execute_code_blocks
         (on_messages extract_markdown_code_blocks messages tok self) w
     = mkRun (Returned
                (mkResponse
                   (TextMessage "No code blocks found in the thread."
                                (name self)),
                 self))
             w [])
  /\ run execute_code_blocks
         (on_messages (OtherMessage := OtherMessage)
            extract_markdown_code_blocks [] tok self) w
     = mkRun (Returned
                (mkResponse
                   (TextMessage "No code blocks found in the thread."
                                (name self)),
                 self))
             w []
  /\ (forall messages : list (ChatMessage OtherMessage),
        forallb (fun msg => negb (isinstance_TextMessage msg)) messages
        = true ->
        run execute_code_blocks
            (on_messages extract_markdown_code_blocks messages tok self) w
        = mkRun (Returned
                   (mkResponse
                      (TextMessage "No code blocks found in the thread."
                                   (name self)),
                    self))
                w []).
Proof.
  assert (Hnone : forall messages : list (ChatMessage OtherMessage),
     combined_code_blocks extract_markdown_code_blocks messages = [] ->
     run execute_code_blocks
         (on_messages extract_markdown_code_blocks messages tok self) w
     = mkRun (Returned
                (mkResponse
                   (TextMessage "No code blocks found in the thread."
                                (name self)),
                 self))
             w []).
  { intros messages Hempty. now apply run_on_messages_none. }
  split; [exact Hnone | split].
  - now apply Hnone.
  - intros messages Hno_text. apply Hnone.
    induction messages as [| msg rest IH]; [reflexivity |].
    simpl in Hno_text. apply andb_true_iff in Hno_text.
    destruct Hno_text as [Hmsg Hrest].
    destruct msg as [content source | other]; [discriminate Hmsg |].
    simpl. now apply IH.
Qed.

(** ** Failure of the executor *)

(** C4.  When the messages hold code blocks and the call of the executor
    raises (a failure of the execution, or its cancellation), running
    [on_messages] raises the very same exception: there is no reply, the
    world is as the executor left it, and the executor was called that one
    time only. *)
Theorem executor_failure_propagates
        (self : CodeExecutorAgent CodeExecutor)
        (messages : list (ChatMessage OtherMessage))
        (tok : CancellationToken) (w w' : World) (e : Exn) :
  combined_code_blocks extract_markdown_code_blocks messages <> [] ->
  execute_code_blocks (_code_executor self)
    (combined_code_blocks extract_markdown_code_blocks messages) tok w
  = (Raised e, w') ->
  run execute_code_blocks
      (on_messages extract_markdown_code_blocks messages tok self) w
  = mkRun (Raised e) w'
          [mkInvocation (_code_executor self)
             (combined_code_blocks extract_markdown_code_blocks messages)
             tok].
Proof.
  intros Hsome Hraise. rewrite run_on_messages_some by exact Hsome.
  rewrite Hraise. reflexivity.
Qed.

(** ** Messages that are not text messages *)

(** C5.  Messages that are not a [TextMessage] are skipped: [on_messages]
    is the same program on a sequence and on its [TextMessage] entries
    alone, the same with and without any one such message, such a message
    gives no code block, and a sequence of such messages only gets the
    "no code blocks" reply, not a failure. *)
Theorem non_text_messages_are_ignored
        (self : CodeExecutorAgent CodeExecutor) (tok : CancellationToken) :
  (forall messages : list (ChatMessage OtherMessage),
     on_messages extract_markdown_code_blocks messages tok self
     = on_messages extract_markdown_code_blocks
         (filter (@isinstance_TextMessage _) messages) tok self)
  /\ (forall (before after : list (ChatMessage OtherMessage))
             (other : OtherMessage),
        on_messages extract_markdown_code_blocks
          (before ++ OtherChatMessage other :: after) tok self
        = on_messages extract_markdown_code_blocks (before ++ after) tok self)
  /\ (forall other : OtherMessage,
        message_code_blocks extract_markdown_code_blocks
          (OtherChatMessage other) = [])
  /\ (forall (others : list OtherMessage) (w : World),
        run execute_code_blocks
            (on_messages extract_markdown_code_blocks
               (map (@OtherChatMessage _) others) tok self) w
        = mkRun (Returned
                   (mkResponse
                      (TextMessage "No code blocks found in the thread."
                                   (name self)),
                    self))
                w []).
Proof.
  repeat split.
  - intro messages. apply on_messages_same_blocks.
    symmetry. apply combined_text_only.
  - intros before after other. apply on_messages_same_blocks.
    now rewrite !combined_app.
  - intros others w. rewrite on_messages_none by apply combined_others.
    reflexivity.
Qed.

(** ** [on_reset] *)

(** C6.  [on_reset] returns at once for every cancellation token, without
    raising, without a call of the executor, and leaves the world and the
    agent as they were; [on_messages] after an [on_reset] is the same
    program as [on_messages] alone. *)
Theorem on_reset_is_a_no_op
        (self : CodeExecutorAgent CodeExecutor) (tok : CancellationToken) :
  on_reset tok self = Ret (tt, self)
  /\ (forall w : World,
        run execute_code_blocks (on_reset tok self) w
        = mkRun (Returned (tt, self)) w [])
  /\ (forall (messages : list (ChatMessage OtherMessage))
             (tok' : CancellationToken),
        mbind (on_reset tok)
              (fun _ => on_messages extract_markdown_code_blocks messages tok')
              self
        = on_messages extract_markdown_code_blocks messages tok' self).
Proof.
  split; [reflexivity | split].
  - intro w. reflexivity.
  - intros messages tok'. reflexivity.
Qed.

(** ** [produced_message_types] *)

(** C7.  [produced_message_types] gives the one-element list [[TextMessage]]
    for every agent, however it was constructed, without touching the agent
    or the world, and also after any other method ran before it; read as a
    set, the list has no repetition and [TextMessage] as its only member. *)
Theorem produced_message_types_is_TextMessage
        (self : CodeExecutorAgent CodeExecutor) :
  produced_message_types (OtherMessageType := OtherMessageType)
                         (CancellationToken := CancellationToken) self
  = Ret ([TextMessageType], self)
  /\ (exists types : list (MessageType OtherMessageType),
        produced_message_types (CancellationToken := CancellationToken) self
        = Ret (types, self)
        /\ NoDup types
        /\ forall t : MessageType OtherMessageType,
             In t types <-> t = TextMessageType)
  /\ (forall (n : string) (ex : CodeExecutor) (d : string),
        pbind (__init__ (CancellationToken := CancellationToken) n ex d)
              (produced_message_types (OtherMessageType := OtherMessageType))
        = Ret ([TextMessageType],
               mkCodeExecutorAgent (mkBaseChatAgent n d) ex))
  /\ (forall (A : Type) (prior : Method CodeExecutor CancellationToken A)
             (w : World),
        outcome
          (run execute_code_blocks
               (mbind prior
                      (fun _ =>
                         produced_message_types
                           (OtherMessageType := OtherMessageType))
                      self) w)
        = match outcome (run execute_code_blocks (prior self) w) with
          | Returned r => Returned ([TextMessageType], snd r)
          | Raised e => Raised e
          end).
Proof.
  split; [reflexivity | split; [| split; [reflexivity |]]].
  - exists [TextMessageType]. split; [reflexivity | split].
    + constructor; [intros [] | constructor].
    + intro t; simpl. split.
      * intros [Ht | []]. now symmetry.
      * intro Ht. left. now symmetry.
  - intros A prior w. unfold mbind, run. rewrite run_from_pbind.
    destruct (outcome (run_from execute_code_blocks (prior self) w []))
      as [r | e]; reflexivity.
Qed.

(** ** No state between invocations *)

(** C8.  The outcome of [on_messages] depends on the world only through
    the answer of the executor: from two worlds in which the executor
    answers the call alike (when there is a call), the same agent, messages
    and token give the same outcome; and the agent an invocation leaves is
    the agent it started from, so the next invocation, from whatever world,
    finds what this one found. *)
Theorem on_messages_is_determined_by_its_arguments
        (self : CodeExecutorAgent CodeExecutor)
        (messages : list (ChatMessage OtherMessage))
        (tok : CancellationToken) (w1 w2 : World) :
  (combined_code_blocks extract_markdown_code_blocks messages <> [] ->
   fst (execute_code_blocks (_code_executor self)
          (combined_code_blocks extract_markdown_code_blocks messages) tok w1)
   = fst (execute_code_blocks (_code_executor self)
            (combined_code_blocks extract_markdown_code_blocks messages) tok
            w2)) ->
  outcome (run execute_code_blocks
               (on_messages extract_markdown_code_blocks messages tok self)
               w1)
  = outcome (run execute_code_blocks
                 (on_messages extract_markdown_code_blocks messages tok self)
                 w2)
  /\ (forall (response : Response OtherMessage)
             (self' : CodeExecutorAgent CodeExecutor),
        outcome (run execute_code_blocks
                     (on_messages extract_markdown_code_blocks messages tok
                                  self) w1)
        = Returned (response, self') ->
        self' = self
        /\ outcome (run execute_code_blocks
                        (on_messages extract_markdown_code_blocks messages
                                     tok self') w2)
           = Returned (response, self')).
Proof.
  intro Hsame.
  destruct (code_blocks_empty_dec
              (combined_code_blocks extract_markdown_code_blocks messages))
    as [Hnone | Hsome].
  - split.
    + now rewrite !run_on_messages_none by exact Hnone.
    + intros response self' Hret.
      rewrite run_on_messages_none in Hret by exact Hnone.
      simpl in Hret. injection Hret as Hresponse Hself. subst self'.
      split; [reflexivity |].
      rewrite run_on_messages_none by exact Hnone.
      simpl. now rewrite Hresponse.
  - specialize (Hsame Hsome). split.
    + rewrite !run_on_messages_some by exact Hsome. simpl.
      now rewrite Hsame.
    + intros response self' Hret.
      rewrite run_on_messages_some in Hret by exact Hsome.
      simpl in Hret.
      destruct (fst (execute_code_blocks (_code_executor self)
                       (combined_code_blocks extract_markdown_code_blocks
                          messages) tok w1))
        as [result | e] eqn:Hanswer; [| discriminate Hret].
      injection Hret as Hresponse Hself. subst self'.
      split; [reflexivity |].
      rewrite run_on_messages_some by exact Hsome.
      simpl. rewrite <- Hsame. now rewrite Hresponse.
Qed.

(** ** Construction *)

(** C9.  A call of the constructor with a name and an executor gives, with
    no call of an executor and no change of the world, the agent of that
    name and executor, whose description is the one given or, if none is
    given, the fixed text about running Python and sh code blocks; the call
    fails exactly when the name or the executor is left out. *)
Theorem construction
        (n : string) (ex : CodeExecutor) :
  new_CodeExecutorAgent (CancellationToken := CancellationToken)
    (Some n) (Some ex) None
  = inr (Ret (mkCodeExecutorAgent
                (mkBaseChatAgent n
                   "A computer terminal that performs no other action than running Python scripts (provided to it quoted in ```python code blocks), or sh shell scripts (provided to it quoted in ```sh code blocks).")
                ex))
  /\ (forall d : string,
        new_CodeExecutorAgent (CancellationToken := CancellationToken)
          (Some n) (Some ex) (Some d)
        = inr (Ret (mkCodeExecutorAgent (mkBaseChatAgent n d) ex)))
  /\ (forall (n' : option string) (ex' : option CodeExecutor)
             (d' : option string),
        (exists err : TypeError,
           new_CodeExecutorAgent (CancellationToken := CancellationToken)
             n' ex' d' = inl err)
        <-> n' = None \/ ex' = None)
  /\ (forall (n' : option string) (ex' : option CodeExecutor)
             (d' : option string)
             (p : Prog CodeExecutor CancellationToken
                       (CodeExecutorAgent CodeExecutor))
             (w : World),
        new_CodeExecutorAgent n' ex' d' = inr p ->
        exists agent : CodeExecutorAgent CodeExecutor,
          run execute_code_blocks p w = mkRun (Returned agent) w []).
Proof.
  split; [reflexivity | split; [reflexivity | split]].
  - intros n' ex' d'. split.
    + intros [err Herr].
      destruct n' as [n0 |]; [| now left].
      destruct ex' as [ex0 |]; [discriminate Herr | now right].
    + intros [Hn | Hex]; subst.
      * eexists. reflexivity.
      * destruct n' as [n0 |]; eexists; reflexivity.
  - intros n' ex' d' p w Hnew.
    destruct n' as [n0 |]; [| discriminate Hnew].
    destruct ex' as [ex0 |]; [| discriminate Hnew].
    inversion Hnew; subst p. eexists. reflexivity.
Qed.

(** ** The cancellation token without code blocks *)

(** C10.  When the messages hold no code block, the cancellation token plays
    no part: [on_messages] is the same program for any two tokens, and
    under every executor, also one that raises on a cancelled token, its
    run returns the "No code blocks found in the thread." reply with no call
    of the executor. *)
Theorem cancellation_token_unused_without_code_blocks
        (self : CodeExecutorAgent CodeExecutor)
        (messages : list (ChatMessage OtherMessage))
        (tok1 tok2 : CancellationToken) :
  combined_code_blocks extract_markdown_code_blocks messages = [] ->
  on_messages extract_markdown_code_blocks messages tok1 self
  = on_messages extract_markdown_code_blocks messages tok2 self
  /\ (forall w : World,
        run execute_code_blocks
            (on_messages extract_markdown_code_blocks messages tok1 self) w
        = mkRun (Returned
                   (mkResponse
                      (TextMessage "No code blocks found in the thread."
                                   (name self)),
                    self))
                w []).
Proof.
  intro Hnone. split.
  - now rewrite !on_messages_none by exact Hnone.
  - intro w. now rewrite on_messages_none by exact Hnone.
Qed.

(** * Further properties of [on_messages] *)

(** ** What counts in the messages *)

Lemma combined_nil_iff (messages : list (ChatMessage OtherMessage)) :
  combined_code_blocks extract_markdown_code_blocks messages = []
  <-> forall content source : string,
        In (TextMessage content source) messages ->
        extract_markdown_code_blocks content = [].
Proof.
  unfold combined_code_blocks.
  induction messages as [| msg rest IH]; simpl.
  - split; [intros _ content source [] | reflexivity].
  - split.
    + intros Hnil content source [Hhead | Htail].
      * subst msg. simpl in Hnil. now apply app_eq_nil in Hnil.
      * apply app_eq_nil in Hnil. now apply (proj1 IH (proj2 Hnil)) with source.
    + intro Hall.
      assert (Hrest : flat_map
                        (message_code_blocks extract_markdown_code_blocks)
                        rest = []).
      { apply IH. intros content source Hin.
        apply Hall with source. now right. }
      rewrite Hrest, app_nil_r.
      destruct msg as [content source | other]; [| reflexivity].
      simpl. apply Hall with source. now left.
Qed.

(** X1.  The source of a text message plays no part: [on_messages] is the
    same program whoever sent a text message, the agent itself included. *)
Theorem message_source_is_ignored
        (self : CodeExecutorAgent CodeExecutor) (tok : CancellationToken)
        (before after : list (ChatMessage OtherMessage))
        (content source1 source2 : string) :
  on_messages extract_markdown_code_blocks
    (before ++ TextMessage content source1 :: after) tok self
  = on_messages extract_markdown_code_blocks
      (before ++ TextMessage content source2 :: after) tok self.
Proof.
  apply on_messages_same_blocks. now rewrite !combined_app.
Qed.

(** X2.  The executor is called if and only if some text message of the
    sequence holds a code block, wherever it stands in the sequence. *)
Theorem executor_called_iff_some_text_message_has_code
        (self : CodeExecutorAgent CodeExecutor)
        (messages : list (ChatMessage OtherMessage))
        (tok : CancellationToken) (w : World) :
  invocations
    (run execute_code_blocks
         (on_messages extract_markdown_code_blocks messages tok self) w)
  <> []
  <-> exists content source : string,
        In (TextMessage content source) messages
        /\ extract_markdown_code_blocks content <> [].
Proof.
  destruct (code_blocks_empty_dec
              (combined_code_blocks extract_markdown_code_blocks messages))
    as [Hnone | Hsome].
  - rewrite run_on_messages_none by exact Hnone. simpl. split.
    + intro Habsurd. now contradiction Habsurd.
    + intros (content & source & Hin & Hcode). exfalso. apply Hcode.
      now apply (proj1 (combined_nil_iff messages) Hnone) with source.
  - rewrite run_on_messages_some by exact Hsome. simpl. split.
    + intros _. clear w.
      unfold combined_code_blocks in Hsome.
      induction messages as [| msg rest IH]; simpl in Hsome.
      * now contradiction Hsome.
      * destruct msg as [content source | other]; simpl in Hsome.
        -- destruct (code_blocks_empty_dec
                       (extract_markdown_code_blocks content))
             as [Hempty | Hcode].
           ++ rewrite Hempty in Hsome. simpl in Hsome.
              destruct (IH Hsome) as (c & s & Hin & Hc).
              exists c, s. split; [now right | exact Hc].
           ++ exists content, source. split; [now left | exact Hcode].
        -- destruct (IH Hsome) as (c & s & Hin & Hc).
           exists c, s. split; [now right | exact Hc].
    + intros _. discriminate.
Qed.

(** X3.  Only the code blocks count: two sequences of messages with the
    same code blocks in the same order, however the blocks are spread over
    the messages and whatever else the messages say, get the same run. *)
Theorem run_depends_on_code_blocks_only
        (self : CodeExecutorAgent CodeExecutor)
        (messages1 messages2 : list (ChatMessage OtherMessage))
        (tok : CancellationToken) (w : World) :
  combined_code_blocks extract_markdown_code_blocks messages1
  = combined_code_blocks extract_markdown_code_blocks messages2 ->
  run execute_code_blocks
      (on_messages extract_markdown_code_blocks messages1 tok self) w
  = run execute_code_blocks
        (on_messages extract_markdown_code_blocks messages2 tok self) w.
Proof.
  intro Hsame.
  destruct (code_blocks_empty_dec
              (combined_code_blocks extract_markdown_code_blocks messages1))
    as [Hnone | Hsome].
  - rewrite !run_on_messages_none; [reflexivity | | exact Hnone].
    now rewrite <- Hsame.
  - rewrite !run_on_messages_some; [now rewrite Hsame | | exact Hsome].
    now rewrite <- Hsame.
Qed.

(** ** The reply and the declared message types *)

Variable other_type : OtherMessage -> OtherMessageType.

(** X4.  Whenever [on_messages] returns, its reply is a [TextMessage] sent
    under the agent's name, and the type of the reply is one of the types
    that [produced_message_types] declares for the agent. *)
Theorem reply_is_of_a_produced_type
        (self self' : CodeExecutorAgent CodeExecutor)
        (messages : list (ChatMessage OtherMessage))
        (tok : CancellationToken) (w : World)
        (response : Response OtherMessage) :
  outcome (run execute_code_blocks
               (on_messages extract_markdown_code_blocks messages tok self) w)
  = Returned (response, self') ->
  (exists content : string,
     chat_message response = TextMessage content (name self))
  /\ (exists types : list (MessageType OtherMessageType),
        produced_message_types (CancellationToken := CancellationToken) self'
        = Ret (types, self')
        /\ In (type_of other_type (chat_message response)) types).
Proof.
  intro Hret.
  assert (Hreply : exists content : string,
            chat_message response = TextMessage content (name self)).
  { destruct (code_blocks_empty_dec
                (combined_code_blocks extract_markdown_code_blocks messages))
      as [Hnone | Hsome].
    - rewrite run_on_messages_none in Hret by exact Hnone. simpl in Hret.
      injection Hret as Hresponse _. subst response.
      now exists "No code blocks found in the thread.".
    - rewrite run_on_messages_some in Hret by exact Hsome. simpl in Hret.
      destruct (fst (execute_code_blocks (_code_executor self)
                       (combined_code_blocks extract_markdown_code_blocks
                          messages) tok w))
        as [result | e]; [| discriminate Hret].
      injection Hret as Hresponse _. subst response.
      now exists (output result). }
  split; [exact Hreply |].
  exists [TextMessageType]. split; [reflexivity |].
  destruct Hreply as [content Hcontent]. rewrite Hcontent. simpl. now left.
Qed.

(** ** The agent and the reply *)

(** X5.  The reply, the calls of the executor and the world after
    [on_messages] depend on the agent through its name and its executor
    only: two agents that agree on both, whatever their descriptions, give
    the same. *)
Theorem reply_depends_on_name_and_executor_only
        (self1 self2 : CodeExecutorAgent CodeExecutor)
        (messages : list (ChatMessage OtherMessage))
        (tok : CancellationToken) (w : World) :
  name self1 = name self2 ->
  _code_executor self1 = _code_executor self2 ->
  returned_value
    (outcome (run execute_code_blocks
                  (on_messages extract_markdown_code_blocks messages tok
                               self1) w))
  = returned_value
      (outcome (run execute_code_blocks
                    (on_messages extract_markdown_code_blocks messages tok
                                 self2) w))
  /\ world (run execute_code_blocks
                (on_messages extract_markdown_code_blocks messages tok self1)
                w)
     = world (run execute_code_blocks
                  (on_messages extract_markdown_code_blocks messages tok
                               self2) w)
  /\ invocations
       (run execute_code_blocks
            (on_messages extract_markdown_code_blocks messages tok self1) w)
     = invocations
         (run execute_code_blocks
              (on_messages extract_markdown_code_blocks messages tok self2)
              w).
Proof.
  intros Hname Hexecutor.
  destruct (code_blocks_empty_dec
              (combined_code_blocks extract_markdown_code_blocks messages))
    as [Hnone | Hsome].
  - rewrite !run_on_messages_none by exact Hnone. simpl.
    rewrite Hname. now repeat split.
  - rewrite !run_on_messages_some by exact Hsome. simpl.
    rewrite Hname, Hexecutor.
    destruct (fst (execute_code_blocks (_code_executor self2)
                     (combined_code_blocks extract_markdown_code_blocks
                        messages) tok w))
      as [result | e]; now repeat split.
Qed.

(** X6.  From construction to reply: an agent constructed with a name, an
    executor and any description calls that executor, once with all the
    code blocks or not at all, and what the caller of [on_messages] gets is
    the "no code blocks" reply under that name, the output of the executor
    under that name, or the exception the executor raised. *)
Theorem constructed_agent_replies_under_its_name
        (n d : string) (ex : CodeExecutor)
        (messages : list (ChatMessage OtherMessage))
        (tok : CancellationToken) (w : World) :
  invocations
    (run execute_code_blocks
         (pbind (__init__ n ex d)
                (on_messages extract_markdown_code_blocks messages tok)) w)
  = match combined_code_blocks extract_markdown_code_blocks messages with
    | [] => []
    | b :: bs => [mkInvocation ex (b :: bs) tok]
    end
  /\ returned_value
       (outcome
          (run execute_code_blocks
               (pbind (__init__ n ex d)
                      (on_messages extract_markdown_code_blocks messages tok))
               w))
     = match combined_code_blocks extract_markdown_code_blocks messages with
       | [] =>
           Returned
             (mkResponse
                (TextMessage "No code blocks found in the thread." n))
       | b :: bs =>
           match fst (execute_code_blocks ex (b :: bs) tok w) with
           | Returned result =>
               Returned (mkResponse (TextMessage (output result) n))
           | Raised e => Raised e
           end
       end.
Proof.
  change (pbind (__init__ n ex d)
                (on_messages extract_markdown_code_blocks messages tok))
    with (on_messages extract_markdown_code_blocks messages tok
            (mkCodeExecutorAgent (mkBaseChatAgent n d) ex)).
  destruct (code_blocks_empty_dec
              (combined_code_blocks extract_markdown_code_blocks messages))
    as [Hnone | Hsome].
  - rewrite !run_on_messages_none by exact Hnone. rewrite Hnone.
    split; reflexivity.
  - rewrite !run_on_messages_some by exact Hsome. simpl.
    destruct (combined_code_blocks extract_markdown_code_blocks messages)
      as [| b bs]; [now contradiction Hsome |].
    split; [reflexivity |].
    destruct (fst (execute_code_blocks ex (b :: bs) tok w)); reflexivity.
Qed.

(** ** Calls one after the other *)

Lemma run_from_log (A : Type) (p : Prog CodeExecutor CancellationToken A) :
  forall (w : World) (log : list (Invocation CodeExecutor CancellationToken)),
    run_from execute_code_blocks p w log
    = mkRun (outcome (run execute_code_blocks p w))
            (world (run execute_code_blocks p w))
            (log ++ invocations (run execute_code_blocks p w)).
Proof.
  unfold run.
  induction p as [a | ex bs tok k IH]; intros w log; simpl.
  - now rewrite app_nil_r.
  - destruct (execute_code_blocks ex bs tok w) as [[r | e] w1]; simpl.
    + rewrite (IH r w1 (log ++ [mkInvocation ex bs tok])).
      rewrite (IH r w1 [mkInvocation ex bs tok]). simpl.
      now rewrite <- app_assoc.
    + reflexivity.
Qed.

(** X7.  Nothing is kept from one call to the next: after a first
    [on_messages] that returns, a second one on the same agent runs as it
    would alone from the world the first one left, so it sends the code
    blocks of its own messages only; after a first one that raises, there
    is no second one. *)
Theorem consecutive_calls_share_nothing
        (self : CodeExecutorAgent CodeExecutor)
        (messages1 messages2 : list (ChatMessage OtherMessage))
        (tok1 tok2 : CancellationToken) (w : World) :
  run execute_code_blocks
      (mbind (on_messages extract_markdown_code_blocks messages1 tok1)
             (fun _ =>
                on_messages extract_markdown_code_blocks messages2 tok2)
             self) w
  = match outcome
            (run execute_code_blocks
                 (on_messages extract_markdown_code_blocks messages1 tok1
                              self) w) with
    | Returned _ =>
        mkRun
          (outcome
             (run execute_code_blocks
                  (on_messages extract_markdown_code_blocks messages2 tok2
                               self)
                  (world
                     (run execute_code_blocks
                          (on_messages extract_markdown_code_blocks
                                       messages1 tok1 self) w))))
          (world
             (run execute_code_blocks
                  (on_messages extract_markdown_code_blocks messages2 tok2
                               self)
                  (world
                     (run execute_code_blocks
                          (on_messages extract_markdown_code_blocks
                                       messages1 tok1 self) w))))
          (invocations
             (run execute_code_blocks
                  (on_messages extract_markdown_code_blocks messages1 tok1
                               self) w)
           ++ invocations
                (run execute_code_blocks
                     (on_messages extract_markdown_code_blocks messages2
                                  tok2 self)
                     (world
                        (run execute_code_blocks
                             (on_messages extract_markdown_code_blocks
                                          messages1 tok1 self) w))))
    | Raised e =>
        mkRun (Raised e)
              (world
                 (run execute_code_blocks
                      (on_messages extract_markdown_code_blocks messages1
                                   tok1 self) w))
              (invocations
                 (run execute_code_blocks
                      (on_messages extract_markdown_code_blocks messages1
                                   tok1 self) w))
    end.
Proof.
  unfold mbind. unfold run at 1. rewrite run_from_pbind.
  change (run_from execute_code_blocks
            (on_messages extract_markdown_code_blocks messages1 tok1 self)
            w [])
    with (run execute_code_blocks
            (on_messages extract_markdown_code_blocks messages1 tok1 self) w).
  destruct (code_blocks_empty_dec
              (combined_code_blocks extract_markdown_code_blocks messages1))
    as [Hnone | Hsome].
  - rewrite !run_on_messages_none by exact Hnone. simpl.
    apply run_from_log.
  - rewrite !run_on_messages_some by exact Hsome. simpl.
    destruct (fst (execute_code_blocks (_code_executor self)
                     (combined_code_blocks extract_markdown_code_blocks
                        messages1) tok1 w))
      as [result | e]; simpl.
    + apply run_from_log.
    + reflexivity.
Qed.

End Properties.

(** * The properties on the sample collaborators *)

Example sample_thread_code_blocks :
  combined_code_blocks Sample.extract_markdown_code_blocks Sample.thread
  = Sample.thread_code_blocks.
Proof. vm_compute. reflexivity. Qed.

Example sample_thread_run :
  run Sample.execute_code_blocks
      (on_messages Sample.extract_markdown_code_blocks Sample.thread
                   (Sample.mkToken false) Sample.agent) []
  = mkRun (Returned
             (mkResponse
                (TextMessage
                   ("mkdir out" ++ Sample.nl ++ "open('out/f', 'w')"
                    ++ Sample.nl ++ "print('Hello world')")
                   "code_executor"),
              Sample.agent))
          Sample.thread_code_blocks
          [mkInvocation Sample.EchoExecutor Sample.thread_code_blocks
                        (Sample.mkToken false)].
Proof. vm_compute. reflexivity. Qed.

Example sample_reset_then_messages :
  run Sample.execute_code_blocks
      (mbind (on_reset (Sample.mkToken true))
             (fun _ =>
                on_messages Sample.extract_markdown_code_blocks Sample.thread
                            (Sample.mkToken false))
             Sample.exit_one_agent) []
  = run Sample.execute_code_blocks
        (on_messages Sample.extract_markdown_code_blocks Sample.thread
                     (Sample.mkToken false) Sample.exit_one_agent) [].
Proof. reflexivity. Qed.

Example sample_missing_arguments :
  new_CodeExecutorAgent (CodeExecutor := Sample.CodeExecutor)
    (CancellationToken := Sample.CancellationToken) None None None
  = inl (MissingArguments ["name"; "code_executor"]).
Proof. reflexivity. Qed.

(** The theorems with a premise, each at an input that meets it. *)

Lemma on_messages_executes_once_witness :
  combined_code_blocks Sample.extract_markdown_code_blocks Sample.thread <> []
  /\ run Sample.execute_code_blocks
         (on_messages Sample.extract_markdown_code_blocks Sample.thread
                      (Sample.mkToken false) Sample.exit_one_agent) []
     = mkRun (Returned
                (mkResponse (TextMessage "exit status 1" "code_executor"),
                 Sample.exit_one_agent))
             Sample.thread_code_blocks
             [mkInvocation Sample.ExitOneExecutor Sample.thread_code_blocks
                           (Sample.mkToken false)].
Proof.
  assert (Hsome : combined_code_blocks Sample.extract_markdown_code_blocks
                    Sample.thread <> [])
    by (vm_compute; discriminate).
  split; [exact Hsome |].
  apply (proj2 (proj2 (@on_messages_executes_once _ _ _ _ _
                         Sample.extract_markdown_code_blocks
                         Sample.execute_code_blocks Sample.exit_one_agent
                         Sample.thread (Sample.mkToken false) Hsome))
           [] Sample.thread_code_blocks 1%Z "exit status 1").
  vm_compute. reflexivity.
Defined.

Lemma executor_receives_blocks_in_order_witness :
  Sample.extract_markdown_code_blocks Sample.two_blocks
  = [mkCodeBlock "mkdir out" "sh"; mkCodeBlock "open('out/f', 'w')" "python"]
  /\ Sample.extract_markdown_code_blocks Sample.hello
     = [mkCodeBlock "print('Hello world')" "python"]
  /\ invocations
       (run Sample.execute_code_blocks
            (on_messages (OtherMessage := Sample.OtherMessage)
               Sample.extract_markdown_code_blocks
               [TextMessage Sample.two_blocks "coder";
                TextMessage Sample.hello "user"]
               (Sample.mkToken false) Sample.agent) [])
     = [mkInvocation Sample.EchoExecutor Sample.thread_code_blocks
                     (Sample.mkToken false)].
Proof.
  assert (HA : Sample.extract_markdown_code_blocks Sample.two_blocks
               = [mkCodeBlock "mkdir out" "sh";
                  mkCodeBlock "open('out/f', 'w')" "python"])
    by (vm_compute; reflexivity).
  assert (HB : Sample.extract_markdown_code_blocks Sample.hello
               = [mkCodeBlock "print('Hello world')" "python"])
    by (vm_compute; reflexivity).
  split; [exact HA | split; [exact HB |]].
  exact (proj2 (@executor_receives_blocks_in_order Sample.OtherMessage _ _ _ _
                  Sample.extract_markdown_code_blocks
                  Sample.execute_code_blocks Sample.agent
                  (Sample.mkToken false) [])
           Sample.two_blocks "coder" Sample.hello "user" _ _ _ HA HB).
Defined.

Lemma on_messages_without_code_blocks_witness :
  combined_code_blocks Sample.extract_markdown_code_blocks Sample.idle_thread
  = []
  /\ run Sample.execute_code_blocks
         (on_messages Sample.extract_markdown_code_blocks Sample.idle_thread
                      (Sample.mkToken false) Sample.agent) []
     = mkRun (Returned
                (mkResponse
                   (TextMessage "No code blocks found in the thread."
                                "code_executor"),
                 Sample.agent))
             [] [].
Proof.
  assert (Hnone : combined_code_blocks Sample.extract_markdown_code_blocks
                    Sample.idle_thread = [])
    by (vm_compute; reflexivity).
  split; [exact Hnone |].
  exact (proj1 (@on_messages_without_code_blocks _ _ _ _ _
                  Sample.extract_markdown_code_blocks
                  Sample.execute_code_blocks Sample.agent
                  (Sample.mkToken false) [])
           Sample.idle_thread Hnone).
Defined.

Lemma executor_failure_propagates_witness :
  combined_code_blocks Sample.extract_markdown_code_blocks Sample.thread <> []
  /\ run Sample.execute_code_blocks
         (on_messages Sample.extract_markdown_code_blocks Sample.thread
                      (Sample.mkToken true) Sample.agent) []
     = mkRun (Raised Sample.CancelledError) []
             [mkInvocation Sample.EchoExecutor
                (combined_code_blocks Sample.extract_markdown_code_blocks
                   Sample.thread)
                (Sample.mkToken true)]
  /\ run Sample.execute_code_blocks
         (on_messages Sample.extract_markdown_code_blocks Sample.thread
                      (Sample.mkToken false) Sample.stopped_agent) []
     = mkRun (Raised (Sample.RuntimeError "executor not running")) []
             [mkInvocation Sample.StoppedExecutor
                (combined_code_blocks Sample.extract_markdown_code_blocks
                   Sample.thread)
                (Sample.mkToken false)].
Proof.
  assert (Hsome : combined_code_blocks Sample.extract_markdown_code_blocks
                    Sample.thread <> [])
    by (vm_compute; discriminate).
  split; [exact Hsome | split].
  - apply (@executor_failure_propagates _ _ _ _ _
             Sample.extract_markdown_code_blocks Sample.execute_code_blocks
             Sample.agent Sample.thread (Sample.mkToken true) [] []
             Sample.CancelledError Hsome).
    vm_compute. reflexivity.
  - apply (@executor_failure_propagates _ _ _ _ _
             Sample.extract_markdown_code_blocks Sample.execute_code_blocks
             Sample.stopped_agent Sample.thread (Sample.mkToken false) [] []
             (Sample.RuntimeError "executor not running") Hsome).
    vm_compute. reflexivity.
Defined.

Lemma on_messages_is_determined_by_its_arguments_witness :
  outcome (run Sample.execute_code_blocks
               (on_messages Sample.extract_markdown_code_blocks Sample.thread
                            (Sample.mkToken false) Sample.agent) [])
  = outcome (run Sample.execute_code_blocks
                 (on_messages Sample.extract_markdown_code_blocks
                              Sample.thread (Sample.mkToken false)
                              Sample.agent)
                 Sample.thread_code_blocks).
Proof.
  apply (@on_messages_is_determined_by_its_arguments _ _ _ _ _
           Sample.extract_markdown_code_blocks Sample.execute_code_blocks
           Sample.agent Sample.thread (Sample.mkToken false)
           [] Sample.thread_code_blocks).
  intros _. vm_compute. reflexivity.
Defined.

Lemma construction_witness :
  new_CodeExecutorAgent (CancellationToken := Sample.CancellationToken)
    (Some "code_executor") (Some Sample.EchoExecutor) (Some "runs code")
  = inr (Ret Sample.agent)
  /\ exists agent : CodeExecutorAgent Sample.CodeExecutor,
       run Sample.execute_code_blocks (Ret Sample.agent) []
       = mkRun (Returned agent) [] [].
Proof.
  assert (Hnew :
    new_CodeExecutorAgent (CancellationToken := Sample.CancellationToken)
      (Some "code_executor") (Some Sample.EchoExecutor) (Some "runs code")
    = inr (Ret Sample.agent))
    by reflexivity.
  split; [exact Hnew |].
  exact (proj2 (proj2 (proj2
           (@construction _ _ _ _ Sample.execute_code_blocks
              "code_executor" Sample.EchoExecutor)))
           _ _ _ _ [] Hnew).
Defined.

Lemma cancellation_token_unused_without_code_blocks_witness :
  combined_code_blocks Sample.extract_markdown_code_blocks Sample.idle_thread
  = []
  /\ on_messages Sample.extract_markdown_code_blocks Sample.idle_thread
                 (Sample.mkToken true) Sample.agent
     = on_messages Sample.extract_markdown_code_blocks Sample.idle_thread
                   (Sample.mkToken false) Sample.agent
  /\ run Sample.execute_code_blocks
         (on_messages Sample.extract_markdown_code_blocks Sample.idle_thread
                      (Sample.mkToken true) Sample.agent) []
     = mkRun (Returned
                (mkResponse
                   (TextMessage "No code blocks found in the thread."
                                "code_executor"),
                 Sample.agent))
             [] [].
Proof.
  assert (Hnone : combined_code_blocks Sample.extract_markdown_code_blocks
                    Sample.idle_thread = [])
    by (vm_compute; reflexivity).
  split; [exact Hnone |].
  destruct (@cancellation_token_unused_without_code_blocks _ _ _ _ _
              Sample.extract_markdown_code_blocks Sample.execute_code_blocks
              Sample.agent Sample.idle_thread
              (Sample.mkToken true) (Sample.mkToken false) Hnone)
    as [Hsame Hrun].
  split; [exact Hsame | exact (Hrun [])].
Defined.

Lemma run_depends_on_code_blocks_only_witness :
  combined_code_blocks Sample.extract_markdown_code_blocks Sample.thread
  = combined_code_blocks Sample.extract_markdown_code_blocks
      Sample.merged_thread
  /\ run Sample.execute_code_blocks
         (on_messages Sample.extract_markdown_code_blocks Sample.thread
                      (Sample.mkToken false) Sample.agent) []
     = run Sample.execute_code_blocks
           (on_messages Sample.extract_markdown_code_blocks
              Sample.merged_thread
              (Sample.mkToken false) Sample.agent) [].
Proof.
  assert (Hsame :
    combined_code_blocks Sample.extract_markdown_code_blocks Sample.thread
    = combined_code_blocks Sample.extract_markdown_code_blocks
        Sample.merged_thread)
    by (vm_compute; reflexivity).
  split; [exact Hsame |].
  exact (@run_depends_on_code_blocks_only _ _ _ _ _
           Sample.extract_markdown_code_blocks Sample.execute_code_blocks
           Sample.agent Sample.thread _ (Sample.mkToken false) [] Hsame).
Defined.

Lemma reply_is_of_a_produced_type_witness :
  outcome (run Sample.execute_code_blocks
               (on_messages Sample.extract_markdown_code_blocks
                            Sample.thread (Sample.mkToken false)
                            Sample.exit_one_agent) [])
  = Returned (mkResponse (TextMessage "exit status 1" "code_executor"),
              Sample.exit_one_agent)
  /\ exists types : list (MessageType Sample.OtherMessageType),
       produced_message_types (CancellationToken := Sample.CancellationToken)
                              Sample.exit_one_agent
       = Ret (types, Sample.exit_one_agent)
       /\ In (type_of Sample.other_type
                (TextMessage "exit status 1" "code_executor")) types.
Proof.
  assert (Hret :
    outcome (run Sample.execute_code_blocks
                 (on_messages Sample.extract_markdown_code_blocks
                              Sample.thread (Sample.mkToken false)
                              Sample.exit_one_agent) [])
    = Returned (mkResponse (TextMessage "exit status 1" "code_executor"),
                Sample.exit_one_agent))
    by (vm_compute; reflexivity).
  split; [exact Hret |].
  exact (proj2 (@reply_is_of_a_produced_type _ _ _ _ _ _
                  Sample.extract_markdown_code_blocks
                  Sample.execute_code_blocks Sample.other_type
                  Sample.exit_one_agent Sample.exit_one_agent Sample.thread
                  (Sample.mkToken false) [] _ Hret)).
Defined.

Lemma reply_depends_on_name_and_executor_only_witness :
  returned_value
    (outcome (run Sample.execute_code_blocks
                  (on_messages Sample.extract_markdown_code_blocks
                               Sample.thread (Sample.mkToken false)
                               Sample.agent) []))
  = returned_value
      (outcome (run Sample.execute_code_blocks
                    (on_messages Sample.extract_markdown_code_blocks
                                 Sample.thread (Sample.mkToken false)
                                 Sample.terse_agent) [])).
Proof.
  apply (@reply_depends_on_name_and_executor_only _ _ _ _ _
           Sample.extract_markdown_code_blocks Sample.execute_code_blocks
           Sample.agent Sample.terse_agent Sample.thread
           (Sample.mkToken false) []); reflexivity.
Defined.
